(** * GearMath: gear phase and speed formulas of [gear_math.js]

    The source is one object of six pure functions over JavaScript
    Numbers.  The functions are written once below, over an interface
    [JsNumber] that lists the arithmetic the source uses (integer
    literals, [Math.PI], [+ - * / %], unary minus and [<]).  Two
    instances interpret that interface:

    - [Exact]: numbers are real numbers and the arithmetic is exact.
      This is the reading in which the specification speaks of "plain
      real numbers", of congruence modulo 2π and of algebraic inverses.
      Division is only meaningful for a nonzero divisor, so every
      statement on this instance that divides by an input carries the
      matching hypothesis.
    - [Binary64]: numbers are IEEE 754 binary64 values (the standard
      library's [spec_float] at precision 53), with signed zeros,
      infinities and NaN.  This is the reading that decides what a
      division by zero produces, and it records where rounding makes
      a double depart from the exact value. *)

From Stdlib Require Import ZArith Bool Lia.
From Stdlib Require Import Reals Lra.
From Stdlib Require Import Floats.SpecFloat.

Set Implicit Arguments.

(** ** The arithmetic the source relies on *)

Class JsNumber (num : Type) : Type := {
  lit : Z -> num;                 (* an integer literal such as [0], [1], [2] *)
  Math_PI : num;                  (* [Math.PI] *)
  add : num -> num -> num;        (* [a + b] *)
  sub : num -> num -> num;        (* [a - b] *)
  mul : num -> num -> num;        (* [a * b] *)
  div : num -> num -> num;        (* [a / b] *)
  rem : num -> num -> num;        (* [a % b], sign of the dividend *)
  neg : num -> num;               (* [-a] *)
  ltb : num -> num -> bool        (* [a < b] *)
}.

Declare Scope js_scope.
Delimit Scope js_scope with js.
Infix "+" := add : js_scope.
Infix "-" := sub : js_scope.
Infix "*" := mul : js_scope.
Infix "/" := div : js_scope.
Infix "%%" := rem (at level 40, left associativity) : js_scope.
Infix "<?" := ltb : js_scope.
Notation "- x" := (neg x) : js_scope.

(** ** The six functions of the [GearMath] object *)

Section GearMath.
Context {num : Type} {JN : JsNumber num}.
Local Open Scope js_scope.

Definition normalizeAngle (angle : num) : num :=
  let angle := angle %% (lit 2 * Math_PI) in
  let angle := if angle <? lit 0 then angle + lit 2 * Math_PI else angle in
  angle.


Definition planetaryRingSpeed (sunOmega carrierOmega sunTeeth ringTeeth : num) : num :=
  ((sunTeeth + ringTeeth) * carrierOmega - sunTeeth * sunOmega) / ringTeeth.

Definition calculateRingPhaseFromPlanet
    (planetPhase meshAngle planetTeeth ringTeeth : num) : num :=
  let halfToothPlanet := Math_PI / planetTeeth in
  let ratio := planetTeeth / ringTeeth in
  let offset := (planetPhase - halfToothPlanet) * ratio + meshAngle * (lit 1 - ratio) in
  normalizeAngle offset.

Definition calculateChildPhase
    (parentPhase meshAngle parentTeeth childTeeth : num) : num :=
  let ratio := parentTeeth / childTeeth in
  let halfTooth := Math_PI / childTeeth in
  let offset :=
    halfTooth - Math_PI - meshAngle * (lit 1 + ratio) - parentPhase * ratio in
  normalizeAngle offset.

Definition calculateInternalMeshPhase
    (parentPhase meshAngle parentTeeth childTeeth : num) : num :=
  let ratio := parentTeeth / childTeeth in
  let halfTooth := Math_PI / childTeeth in
  let offset := - halfTooth + meshAngle * (ratio - lit 1) + parentPhase * ratio in
  normalizeAngle offset.

(** The round trip of the specification: the ring phase obtained from a
    planet phase, fed back through the ring-to-planet relation with the
    same mesh angle and the teeth counts swapped into their roles. *)
Definition roundTrip (planetPhase meshAngle planetTeeth ringTeeth : num) : num :=
  calculateInternalMeshPhase
    (calculateRingPhaseFromPlanet planetPhase meshAngle planetTeeth ringTeeth)
    meshAngle ringTeeth planetTeeth.
End GearMath.

(** ** Exact reading: real numbers *)

Module Exact.
Local Open Scope R_scope.

(** Integer part towards zero, the quotient that [%] discards. *)
Definition Rtrunc (r : R) : Z :=
  if Rle_dec 0 r then Int_part r else (- Int_part (- r))%Z.

(** [a % b]: [a - b * trunc (a / b)], which has the sign of [a]. *)
Definition Rrem (a b : R) : R := a - b * IZR (Rtrunc (a / b)).

Definition Rltb (a b : R) : bool := if Rlt_dec a b then true else false.

(** [a] and [b] differ by a whole number of [m]. *)
Definition congruent_mod (m a b : R) : Prop := exists k : Z, a = b + IZR k * m.

#[export] Instance real_number : JsNumber R := {
  lit := IZR;
  Math_PI := PI;
  add := Rplus;
  sub := Rminus;
  mul := Rmult;
  div := Rdiv;
  rem := Rrem;
  neg := Ropp;
  ltb := Rltb
}.
End Exact.

(** ** Binary64 reading: IEEE 754 doubles *)

Module Binary64.
Definition prec : Z := 53.
Definition emax : Z := 1024.

Definition NaN : spec_float := S754_nan.

(** The double nearest to [m * 2^e], in canonical form. *)
Definition b64 (m e : Z) : spec_float := binary_normalize prec emax m e false.

(** [Math.PI] is the double [0x1.921fb54442d18p+1]. *)
Definition b64_PI : spec_float := S754_finite false 7074237752028440 (-51).

(** [n % d] on Numbers (ECMAScript, Number::remainder): NaN when [n] is
    infinite or [d] is zero, [n] when [d] is infinite or [n] is zero, and
    otherwise the exact remainder of the truncating division, with the
    sign of [n] (also when the remainder is zero). *)
Definition b64_rem (n d : spec_float) : spec_float :=
  match n, d with
  | S754_nan, _ | _, S754_nan => S754_nan
  | S754_infinity _, _ => S754_nan
  | _, S754_infinity _ => n
  | _, S754_zero _ => S754_nan
  | S754_zero _, _ => n
  | S754_finite sn mn en, S754_finite _ md ed =>
      let e := Z.min en ed in
      let N := Z.shiftl (Zpos mn) (en - e) in
      let D := Z.shiftl (Zpos md) (ed - e) in
      binary_normalize prec emax (cond_Zopp sn (Z.rem N D)) e sn
  end.

#[export] Instance double_number : JsNumber spec_float := {
  lit := fun z => b64 z 0;
  Math_PI := b64_PI;
  add := SFadd prec emax;
  sub := SFsub prec emax;
  mul := SFmul prec emax;
  div := SFdiv prec emax;
  rem := b64_rem;
  neg := SFopp;
  ltb := SFltb
}.

Definition is_nan (x : spec_float) : bool :=
  match x with S754_nan => true | _ => false end.

Definition is_infinite (x : spec_float) : bool :=
  match x with S754_infinity _ => true | _ => false end.

Definition is_finite (x : spec_float) : bool :=
  match x with S754_zero _ | S754_finite _ _ _ => true | _ => false end.

(** The double [0.1], [0x1.999999999999ap-4]. *)
Definition one_tenth : spec_float := S754_finite false 7205759403792794 (-56).

(** [2 * Math.PI] as the program computes it. *)
Definition b64_TWO_PI : spec_float := SFmul prec emax (b64 2 0) b64_PI.

(** [0 <= x && x < 2 * Math.PI] as a program would test it. *)
Definition in_turn (x : spec_float) : bool :=
  SFleb (b64 0 0) x && SFltb x b64_TWO_PI.

(** Equality of doubles as values of [spec_float]: the two zeros differ. *)
Definition b64_same (x y : spec_float) : bool :=
  match x, y with
  | S754_zero a, S754_zero b => Bool.eqb a b
  | S754_infinity a, S754_infinity b => Bool.eqb a b
  | S754_nan, S754_nan => true
  | S754_finite a m e, S754_finite b n f => Bool.eqb a b && Pos.eqb m n && Z.eqb e f
  | _, _ => false
  end.

(** The negative power of two [-2^-k]. *)
Definition neg_pow2 (k : Z) : spec_float := b64 (-1) (- k).

(** [normalizeAngle] sends [-2^-k] to [2 * Math.PI], and that to [+0]. *)
Definition wraps_to_two_pi (k : Z) : bool :=
  b64_same (normalizeAngle (neg_pow2 k)) b64_TWO_PI
  && b64_same (normalizeAngle (normalizeAngle (neg_pow2 k))) (S754_zero false).

(** [f] holds at [lo], [lo + 1], ..., [n] values in all. *)
Fixpoint all_from (f : Z -> bool) (lo : Z) (n : nat) : bool :=
  match n with
  | O => true
  | S n' => f lo && all_from f (lo + 1) n'
  end.
End Binary64.

(** ** Theory of the exact reading *)

Module ExactTheory.
Import Exact.
Local Open Scope R_scope.




(** The remainder is the dividend minus a whole number of divisors. *)
Lemma Rrem_congr (a b : R) : exists q : Z, Rrem a b = a - b * IZR q.
Proof. exists (Rtrunc (a / b)). reflexivity. Qed.





(** The body of [normalizeAngle] on reals. *)
Lemma normalizeAngle_eq (x : R) :
  normalizeAngle x =
    if Rltb (Rrem x (2 * PI)) 0 then Rrem x (2 * PI) + 2 * PI else Rrem x (2 * PI).
Proof. reflexivity. Qed.


Lemma normalizeAngle_congr (x : R) :
  exists k : Z, normalizeAngle x = x + IZR k * (2 * PI).
Proof.
  rewrite normalizeAngle_eq.
  destruct (Rrem_congr x (2 * PI)) as [q Hq]. rewrite Hq.
  destruct (Rltb (x - 2 * PI * IZR q) 0).
  - exists (1 - q)%Z. rewrite minus_IZR. lra.
  - exists (- q)%Z. rewrite opp_IZR. lra.
Qed.




(** *** Formulas on reals *)

Lemma planetaryRingSpeed_eq (sunOmega carrierOmega sunTeeth ringTeeth : R) :
  planetaryRingSpeed sunOmega carrierOmega sunTeeth ringTeeth =
    ((sunTeeth + ringTeeth) * carrierOmega - sunTeeth * sunOmega) / ringTeeth.
Proof. reflexivity. Qed.


Lemma calculateRingPhaseFromPlanet_eq (planetPhase meshAngle planetTeeth ringTeeth : R) :
  calculateRingPhaseFromPlanet planetPhase meshAngle planetTeeth ringTeeth =
    normalizeAngle
      ((planetPhase - PI / planetTeeth) * (planetTeeth / ringTeeth)
       + meshAngle * (1 - planetTeeth / ringTeeth)).
Proof. reflexivity. Qed.


Lemma calculateInternalMeshPhase_eq (parentPhase meshAngle parentTeeth childTeeth : R) :
  calculateInternalMeshPhase parentPhase meshAngle parentTeeth childTeeth =
    normalizeAngle
      (- (PI / childTeeth) + meshAngle * (parentTeeth / childTeeth - 1)
       + parentPhase * (parentTeeth / childTeeth)).
Proof. reflexivity. Qed.

(** *** The round trip planet -> ring -> planet *)

(** What the round trip returns: the planet phase, moved by one planet
    tooth pitch and by twice the mesh angle scaled with the ratio, plus
    [k] turns of the ring seen from the planet and [j] whole turns. *)
Lemma roundTrip_value (planetPhase meshAngle planetTeeth ringTeeth : R) :
  planetTeeth <> 0 -> ringTeeth <> 0 ->
  exists k j : Z,
    roundTrip planetPhase meshAngle planetTeeth ringTeeth =
      planetPhase - 2 * PI / planetTeeth
      + 2 * meshAngle * (ringTeeth / planetTeeth - 1)
      + IZR k * (2 * PI) * (ringTeeth / planetTeeth)
      + IZR j * (2 * PI).
Proof.
  intros Hp Hr. unfold roundTrip.
  rewrite calculateInternalMeshPhase_eq, calculateRingPhaseFromPlanet_eq.
  set (raw := (planetPhase - PI / planetTeeth) * (planetTeeth / ringTeeth)
              + meshAngle * (1 - planetTeeth / ringTeeth)).
  destruct (normalizeAngle_congr raw) as [k Hk]. rewrite Hk.
  set (fwd := - (PI / planetTeeth) + meshAngle * (ringTeeth / planetTeeth - 1)
              + (raw + IZR k * (2 * PI)) * (ringTeeth / planetTeeth)).
  destruct (normalizeAngle_congr fwd) as [j Hj]. rewrite Hj.
  exists k, j. unfold fwd, raw. field. split; assumption.
Qed.

(** With whole teeth counts every term after the mesh-angle one is a
    whole number of planet tooth pitches. *)
Lemma roundTrip_pitch (planetPhase meshAngle : R) (planetTeeth ringTeeth : Z) :
  planetTeeth <> 0%Z -> ringTeeth <> 0%Z ->
  congruent_mod (2 * PI / IZR planetTeeth)
    (roundTrip planetPhase meshAngle (IZR planetTeeth) (IZR ringTeeth))
    (planetPhase + 2 * meshAngle * (IZR ringTeeth / IZR planetTeeth - 1)).
Proof.
  intros Hp Hr.
  assert (Hp' : IZR planetTeeth <> 0) by (apply not_0_IZR; assumption).
  assert (Hr' : IZR ringTeeth <> 0) by (apply not_0_IZR; assumption).
  destruct (roundTrip_value planetPhase meshAngle Hp' Hr') as (k & j & E).
  exists (k * ringTeeth + j * planetTeeth - 1)%Z.
  rewrite E, minus_IZR, plus_IZR, !mult_IZR. field. assumption.
Qed.


(** With a mesh angle the planet phase does not come back even up to
    tooth pitches: a one-tooth planet in a two-tooth ring at mesh angle 1
    returns a phase 2 radians away from the one put in. *)
Lemma roundTrip_mesh_angle_shift :
  ~ congruent_mod (2 * PI / IZR 1) (roundTrip 0 1 (IZR 1) (IZR 2)) 0.
Proof.
  intros [n Hn].
  assert (H1 : (1 <> 0)%Z) by discriminate.
  assert (H2 : (2 <> 0)%Z) by discriminate.
  destruct (roundTrip_pitch 0 1 H1 H2) as [k Hk].
  rewrite Hk in Hn. pose proof PI2_1 as Hpi.
  assert (E : IZR (n - k) * PI = 1) by (rewrite minus_IZR; lra).
  assert (Hlt : (0 < n - k < 1)%Z).
  { split; apply lt_IZR.
    - destruct (Rlt_dec 0 (IZR (n - k))); [ assumption | nra ].
    - destruct (Rlt_dec (IZR (n - k)) 1); [ assumption | nra ]. }
  lia.
Qed.

End ExactTheory.

(** ** Theory of the binary64 reading *)

Module Binary64Theory.
Import Binary64.

(** Dividing by a zero of either sign gives an infinity or NaN, whatever
    the dividend. *)
Lemma div_zero_class (x : spec_float) (s : bool) :
  is_infinite (SFdiv prec emax x (S754_zero s))
  || is_nan (SFdiv prec emax x (S754_zero s)) = true.
Proof. destruct x; reflexivity. Qed.

(** A nonzero numerator over zero teeth is an infinity, a zero one NaN. *)
Lemma planetaryRingSpeed_zero_ring_examples :
  planetaryRingSpeed (b64 10 0) (b64 0 0) (b64 30 0) (b64 0 0) = S754_infinity true
  /\ planetaryRingSpeed (b64 0 0) (b64 10 0) (b64 30 0) (b64 0 0) = S754_infinity false
  /\ planetaryRingSpeed (b64 0 0) (b64 0 0) (b64 30 0) (b64 0 0) = NaN.
Proof. repeat split; vm_compute; reflexivity. Qed.

(** [normalizeAngle] has no finite answer for an infinite or NaN angle. *)
Lemma normalizeAngle_not_finite (x : spec_float) :
  is_finite x = false -> normalizeAngle x = NaN.
Proof. destruct x; simpl; intros H; try discriminate H; reflexivity. Qed.

Lemma in_turn_nan : in_turn NaN = false.
Proof. reflexivity. Qed.



(** *** Where rounding shows *)

(** A negative angle far below the spacing of doubles near 2π: adding
    [2 * Math.PI] rounds to [2 * Math.PI] itself, which a second call
    sends to zero. *)
Lemma normalizeAngle_rounding_edge :
  normalizeAngle (b64 (-1) (-70)) = b64_TWO_PI
  /\ normalizeAngle b64_TWO_PI = S754_zero false.
Proof. split; vm_compute; reflexivity. Qed.

(** Equal sun and carrier speeds give the ring that speed up to the last
    bit only: here the quotient is the double after [0.1]. *)
Lemma planetaryRingSpeed_rounding :
  planetaryRingSpeed one_tenth one_tenth (b64 1 0) (b64 3 0)
  = S754_finite false 7205759403792795 (-56).
Proof. vm_compute. reflexivity. Qed.

End Binary64Theory.

(** ** Properties claimed by the specification *)

Import Exact ExactTheory Binary64 Binary64Theory.

(** *** normalizeAngle *)




(** *** planetaryRingSpeed *)

(** C3. [planetaryRingSpeed] returns
    ((sunTeeth + ringTeeth) × carrierOmega − sunTeeth × sunOmega) / ringTeeth
    in every reading of the arithmetic; at (0, 0, 30, 70) that is 0 and at
    (10, 0, 30, 70) it is (−30 × 10) / 70, on reals and on doubles. *)
Theorem planetaryRingSpeed_formula :
  (forall (num : Type) (JN : JsNumber num) (sunOmega carrierOmega sunTeeth ringTeeth : num),
      ringTeeth <> lit 0 ->
      planetaryRingSpeed sunOmega carrierOmega sunTeeth ringTeeth
      = ((sunTeeth + ringTeeth) * carrierOmega - sunTeeth * sunOmega) / ringTeeth)%js
  /\ (planetaryRingSpeed 0 0 30 70 = 0
      /\ planetaryRingSpeed 10 0 30 70 = (-30 * 10) / 70)%R
  /\ (planetaryRingSpeed (b64 0 0) (b64 0 0) (b64 30 0) (b64 70 0) = b64 0 0
      /\ planetaryRingSpeed (b64 10 0) (b64 0 0) (b64 30 0) (b64 70 0)
         = SFdiv prec emax (SFmul prec emax (b64 (-30) 0) (b64 10 0)) (b64 70 0)).
Proof.
  split; [ | split; split ].
  - intros num JN so co st rt _. reflexivity.
  - rewrite planetaryRingSpeed_eq. lra.
  - rewrite planetaryRingSpeed_eq. lra.
  - vm_compute. reflexivity.
  - vm_compute. reflexivity.
Qed.

Lemma planetaryRingSpeed_formula_witness :
  (70 <> 0 /\ planetaryRingSpeed 10 0 30 70 = ((30 + 70) * 0 - 30 * 10) / 70)%R.
Proof.
  assert (H : (70 <> 0)%R) by lra.
  split; [ exact H | exact (proj1 planetaryRingSpeed_formula R _ 10 0 30 70 H)%R ].
Defined.



(** C8. With a zero ring teeth count of either sign, [planetaryRingSpeed]
    returns an infinity or NaN on doubles, for every sun speed, carrier
    speed and sun teeth count, finite or not.  The functions are total on
    doubles: no input has an outcome other than a Number. *)
Theorem planetaryRingSpeed_zero_ring (sunOmega carrierOmega sunTeeth : spec_float) (s : bool) :
  is_infinite (planetaryRingSpeed sunOmega carrierOmega sunTeeth (S754_zero s))
  || is_nan (planetaryRingSpeed sunOmega carrierOmega sunTeeth (S754_zero s)) = true.
Proof. unfold planetaryRingSpeed. apply div_zero_class. Qed.

(** *** The three phase formulas *)

(** C6. [calculateRingPhaseFromPlanet] returns
    normalizeAngle((planetPhase − halfToothPlanet) × ratio + meshAngle × (1 − ratio))
    with ratio = planetTeeth / ringTeeth and halfToothPlanet = π / planetTeeth,
    in every reading of the arithmetic. *)
Theorem calculateRingPhaseFromPlanet_formula
    (num : Type) (JN : JsNumber num) (planetPhase meshAngle planetTeeth ringTeeth : num) :
  planetTeeth <> lit 0 -> ringTeeth <> lit 0 ->
  (calculateRingPhaseFromPlanet planetPhase meshAngle planetTeeth ringTeeth
   = normalizeAngle
       ((planetPhase - Math_PI / planetTeeth) * (planetTeeth / ringTeeth)
        + meshAngle * (lit 1 - planetTeeth / ringTeeth)))%js.
Proof. intros _ _. reflexivity. Qed.

Lemma calculateRingPhaseFromPlanet_formula_witness :
  (20 <> 0 /\ 70 <> 0
   /\ calculateRingPhaseFromPlanet 1 2 20 70
      = normalizeAngle ((1 - PI / 20) * (20 / 70) + 2 * (1 - 20 / 70)))%R.
Proof.
  assert (Hp : (20 <> 0)%R) by lra.
  assert (Hr : (70 <> 0)%R) by lra.
  split; [ exact Hp | split; [ exact Hr | ] ].
  exact (@calculateRingPhaseFromPlanet_formula R _ 1 2 20 70 Hp Hr)%R.
Defined.

(** C4. [calculateChildPhase] returns
    normalizeAngle(halfTooth − π − meshAngle × (1 + ratio) − parentPhase × ratio)
    with ratio = parentTeeth / childTeeth and halfTooth = π / childTeeth,
    in every reading of the arithmetic. *)
Theorem calculateChildPhase_formula
    (num : Type) (JN : JsNumber num) (parentPhase meshAngle parentTeeth childTeeth : num) :
  childTeeth <> lit 0 ->
  (calculateChildPhase parentPhase meshAngle parentTeeth childTeeth
   = normalizeAngle
       (Math_PI / childTeeth - Math_PI
        - meshAngle * (lit 1 + parentTeeth / childTeeth)
        - parentPhase * (parentTeeth / childTeeth)))%js.
Proof. intros _. reflexivity. Qed.

Lemma calculateChildPhase_formula_witness :
  (20 <> 0
   /\ calculateChildPhase 1 2 30 20
      = normalizeAngle (PI / 20 - PI - 2 * (1 + 30 / 20) - 1 * (30 / 20)))%R.
Proof.
  assert (Hc : (20 <> 0)%R) by lra.
  split; [ exact Hc | exact (@calculateChildPhase_formula R _ 1 2 30 20 Hc)%R ].
Defined.

(** C5. [calculateInternalMeshPhase] returns
    normalizeAngle(−halfTooth + meshAngle × (ratio − 1) + parentPhase × ratio)
    with ratio = parentTeeth / childTeeth and halfTooth = π / childTeeth,
    in every reading of the arithmetic. *)
Theorem calculateInternalMeshPhase_formula
    (num : Type) (JN : JsNumber num) (parentPhase meshAngle parentTeeth childTeeth : num) :
  childTeeth <> lit 0 ->
  (calculateInternalMeshPhase parentPhase meshAngle parentTeeth childTeeth
   = normalizeAngle
       (- (Math_PI / childTeeth)
        + meshAngle * (parentTeeth / childTeeth - lit 1)
        + parentPhase * (parentTeeth / childTeeth)))%js.
Proof. intros _. reflexivity. Qed.

Lemma calculateInternalMeshPhase_formula_witness :
  (20 <> 0
   /\ calculateInternalMeshPhase 1 2 70 20
      = normalizeAngle (- (PI / 20) + 2 * (70 / 20 - 1) + 1 * (70 / 20)))%R.
Proof.
  assert (Hc : (20 <> 0)%R) by lra.
  split; [ exact Hc | exact (@calculateInternalMeshPhase_formula R _ 1 2 70 20 Hc)%R ].
Defined.




(** *** The round trip planet -> ring -> planet *)




(** ** Further properties of the code: exact reading *)

Module Phases.
Local Open Scope R_scope.



End Phases.

Import Phases.

(** *** normalizeAngle *)




(** *** planetaryRingTeeth and planetaryRingSpeed *)









(** *** The phase formulas *)















(** ** Further properties of the code: binary64 reading *)

Module Binary64Edges.
Local Open Scope js_scope.

(** An operand that is infinite or NaN makes sums, differences and
    products infinite or NaN; so does such a dividend, and a NaN divisor. *)
Lemma add_not_finite_l (x y : spec_float) :
  is_finite x = false -> is_finite (x + y) = false.
Proof. destruct x as [ | [] | | ], y as [ | [] | | ]; intros H; try discriminate H; reflexivity. Qed.

Lemma add_not_finite_r (x y : spec_float) :
  is_finite y = false -> is_finite (x + y) = false.
Proof. destruct x as [ | [] | | ], y as [ | [] | | ]; intros H; try discriminate H; reflexivity. Qed.

Lemma sub_not_finite_l (x y : spec_float) :
  is_finite x = false -> is_finite (x - y) = false.
Proof. destruct x as [ | [] | | ], y as [ | [] | | ]; intros H; try discriminate H; reflexivity. Qed.

Lemma sub_not_finite_r (x y : spec_float) :
  is_finite y = false -> is_finite (x - y) = false.
Proof. destruct x as [ | [] | | ], y as [ | [] | | ]; intros H; try discriminate H; reflexivity. Qed.

Lemma mul_not_finite_l (x y : spec_float) :
  is_finite x = false -> is_finite (x * y) = false.
Proof. destruct x, y; intros H; try discriminate H; reflexivity. Qed.

Lemma mul_not_finite_r (x y : spec_float) :
  is_finite y = false -> is_finite (x * y) = false.
Proof. destruct x, y; intros H; try discriminate H; reflexivity. Qed.

Lemma div_not_finite_l (x y : spec_float) :
  is_finite x = false -> is_finite (x / y) = false.
Proof. destruct x, y; intros H; try discriminate H; reflexivity. Qed.

Lemma div_nan_r (x y : spec_float) :
  is_nan y = true -> is_finite (x / y) = false.
Proof. destruct x, y; intros H; try discriminate H; reflexivity. Qed.

Lemma nan_not_finite (x : spec_float) : is_nan x = true -> is_finite x = false.
Proof. destruct x; intros H; try discriminate H; reflexivity. Qed.

Lemma infinite_not_finite (x : spec_float) : is_infinite x = true -> is_finite x = false.
Proof. destruct x; intros H; try discriminate H; reflexivity. Qed.

Lemma opp_not_finite (x : spec_float) :
  is_finite x = false -> is_finite (- x) = false.
Proof. destruct x; intros H; try discriminate H; reflexivity. Qed.

Create HintDb not_finite.
#[export] Hint Resolve add_not_finite_l add_not_finite_r sub_not_finite_l sub_not_finite_r
  mul_not_finite_l mul_not_finite_r div_not_finite_l div_nan_r opp_not_finite
  nan_not_finite : not_finite.

(** A quotient that is infinite or NaN over an infinity is NaN. *)
Lemma div_infinity_nan (x y : spec_float) :
  is_finite x = false -> is_infinite y = true -> x / y = NaN.
Proof. destruct x, y; intros Hx Hy; try discriminate Hx; try discriminate Hy; reflexivity. Qed.

(** A NaN among the operands of a quotient makes it NaN. *)
Lemma div_nan (x y : spec_float) :
  is_nan x = true \/ is_nan y = true -> x / y = NaN.
Proof. destruct x, y; intros [H | H]; try discriminate H; reflexivity. Qed.

(** A quotient by a zero of either sign is infinite or NaN. *)
Lemma div_zero_not_finite (x : spec_float) (s : bool) :
  is_finite (x / S754_zero s) = false.
Proof. destruct x; reflexivity. Qed.

(** NaN among the operands of a sum, difference or product makes it NaN. *)
Lemma add_nan_l (x y : spec_float) : is_nan x = true -> is_nan (x + y) = true.
Proof. destruct x, y; intros H; try discriminate H; reflexivity. Qed.

Lemma add_nan_r (x y : spec_float) : is_nan y = true -> is_nan (x + y) = true.
Proof. destruct x, y; intros H; try discriminate H; reflexivity. Qed.

Lemma sub_nan_l (x y : spec_float) : is_nan x = true -> is_nan (x - y) = true.
Proof. destruct x, y; intros H; try discriminate H; reflexivity. Qed.

Lemma sub_nan_r (x y : spec_float) : is_nan y = true -> is_nan (x - y) = true.
Proof. destruct x, y; intros H; try discriminate H; reflexivity. Qed.

Lemma mul_nan_l (x y : spec_float) : is_nan x = true -> is_nan (x * y) = true.
Proof. destruct x, y; intros H; try discriminate H; reflexivity. Qed.

Lemma mul_nan_r (x y : spec_float) : is_nan y = true -> is_nan (x * y) = true.
Proof. destruct x, y; intros H; try discriminate H; reflexivity. Qed.

Create HintDb nan_operand.
#[export] Hint Resolve add_nan_l add_nan_r sub_nan_l sub_nan_r mul_nan_l mul_nan_r
  : nan_operand.

Lemma is_nan_eq (x : spec_float) : is_nan x = true -> x = NaN.
Proof. destruct x; intros H; try discriminate H; reflexivity. Qed.

Lemma b64_same_eq (x y : spec_float) : b64_same x y = true -> x = y.
Proof.
  destruct x as [a | a | | a m e], y as [b | b | | b n f]; simpl; intros H;
    try discriminate H; try reflexivity.
  - apply Bool.eqb_prop in H. now subst.
  - apply Bool.eqb_prop in H. now subst.
  - apply andb_prop in H as [H He]. apply andb_prop in H as [Hs Hm].
    apply Bool.eqb_prop in Hs. apply Pos.eqb_eq in Hm. apply Z.eqb_eq in He.
    now subst.
Qed.

Lemma all_from_spec (f : Z -> bool) (n : nat) :
  forall lo : Z, all_from f lo n = true ->
  forall k : Z, (lo <= k < lo + Z.of_nat n)%Z -> f k = true.
Proof.
  induction n as [ | n IH]; intros lo H k Hk.
  - simpl in Hk. lia.
  - simpl in H. apply andb_prop in H as [Hlo Hrest].
    destruct (Z.eq_dec k lo) as [-> | Hne]; [ exact Hlo | ].
    apply (IH (lo + 1)%Z Hrest). lia.
Qed.

End Binary64Edges.

Import Binary64Edges.

(** X13. On doubles an angle that is infinite or NaN is normalised to NaN,
    and each of the three phase functions returns NaN as soon as its phase,
    its mesh angle or its first teeth count is infinite or NaN, or its
    second teeth count is NaN. *)
Theorem phase_inputs_not_finite :
  (forall angle : spec_float, is_finite angle = false -> normalizeAngle angle = NaN)
  /\ (forall phase meshAngle teeth1 teeth2 : spec_float,
        is_finite phase = false \/ is_finite meshAngle = false
        \/ is_finite teeth1 = false \/ is_nan teeth2 = true ->
        calculateRingPhaseFromPlanet phase meshAngle teeth1 teeth2 = NaN
        /\ calculateChildPhase phase meshAngle teeth1 teeth2 = NaN
        /\ calculateInternalMeshPhase phase meshAngle teeth1 teeth2 = NaN).
Proof.
  split; [ exact normalizeAngle_not_finite | ].
  intros phase meshAngle teeth1 teeth2 H.
  unfold calculateRingPhaseFromPlanet, calculateChildPhase, calculateInternalMeshPhase.
  repeat split; apply normalizeAngle_not_finite;
    destruct H as [H | [H | [H | H]]]; auto 8 with not_finite.
Qed.

Lemma phase_inputs_not_finite_witness :
  is_finite (S754_infinity false) = false
  /\ normalizeAngle (S754_infinity false) = NaN
  /\ calculateChildPhase (b64 1 0) (S754_infinity false) (b64 30 0) (b64 20 0) = NaN.
Proof.
  assert (H : is_finite (S754_infinity false) = false) by reflexivity.
  split; [ exact H | split ].
  - exact (proj1 phase_inputs_not_finite (S754_infinity false) H).
  - exact (proj1 (proj2
      (proj2 phase_inputs_not_finite (b64 1 0) (S754_infinity false) (b64 30 0) (b64 20 0)
         (or_intror (or_introl H))))).
Defined.

(** X14. On doubles [calculateRingPhaseFromPlanet] returns NaN when the
    planet teeth count or the ring teeth count is a zero of either sign,
    whatever the other inputs are. *)
Theorem calculateRingPhaseFromPlanet_zero_teeth
    (planetPhase meshAngle teeth : spec_float) (s : bool) :
  calculateRingPhaseFromPlanet planetPhase meshAngle (S754_zero s) teeth = NaN
  /\ calculateRingPhaseFromPlanet planetPhase meshAngle teeth (S754_zero s) = NaN.
Proof.
  unfold calculateRingPhaseFromPlanet.
  split; apply normalizeAngle_not_finite.
  - apply add_not_finite_l, mul_not_finite_l, sub_not_finite_r, div_zero_not_finite.
  - apply add_not_finite_l, mul_not_finite_r, div_zero_not_finite.
Qed.

(** X15. On doubles [planetaryRingSpeed] returns NaN when any of its four
    arguments is NaN, and also when the ring teeth count is an infinity. *)
Theorem planetaryRingSpeed_nan (sunOmega carrierOmega sunTeeth ringTeeth : spec_float) :
  is_nan sunOmega = true \/ is_nan carrierOmega = true \/ is_nan sunTeeth = true
  \/ is_nan ringTeeth = true \/ is_infinite ringTeeth = true ->
  planetaryRingSpeed sunOmega carrierOmega sunTeeth ringTeeth = NaN.
Proof.
  unfold planetaryRingSpeed.
  intros [H | [H | [H | [H | H]]]].
  - apply div_nan. left. auto 6 with nan_operand.
  - apply div_nan. left. auto 6 with nan_operand.
  - apply div_nan. left. auto 6 with nan_operand.
  - apply div_nan. right. exact H.
  - apply div_infinity_nan; [ | exact H ].
    apply sub_not_finite_l, mul_not_finite_l, add_not_finite_r, infinite_not_finite, H.
Qed.

Lemma planetaryRingSpeed_nan_witness :
  is_infinite (S754_infinity false) = true
  /\ planetaryRingSpeed (b64 10 0) (b64 3 0) (b64 30 0) (S754_infinity false) = NaN.
Proof.
  assert (H : is_infinite (S754_infinity false) = true) by reflexivity.
  split; [ exact H | ].
  exact (planetaryRingSpeed_nan (b64 10 0) (b64 3 0) (b64 30 0) (S754_infinity false)
           (or_intror (or_intror (or_intror (or_intror H))))).
Defined.

(** X16. On doubles, for every negative power of two from -2^-51 down to
    the smallest negative double -2^-1074, [normalizeAngle] returns
    [2 * Math.PI] itself (the sum with [2 * Math.PI] rounds to it), and
    normalising that result again returns 0. *)
Theorem normalizeAngle_tiny_negative (k : Z) :
  (51 <= k <= 1074)%Z ->
  normalizeAngle (neg_pow2 k) = b64_TWO_PI
  /\ normalizeAngle (normalizeAngle (neg_pow2 k)) = S754_zero false.
Proof.
  intros Hk.
  assert (Hall : all_from wraps_to_two_pi 51 1024 = true) by (vm_compute; reflexivity).
  assert (H : wraps_to_two_pi k = true).
  { apply (@all_from_spec wraps_to_two_pi 1024 51%Z Hall).
    change (Z.of_nat 1024) with 1024%Z. lia. }
  unfold wraps_to_two_pi in H. apply andb_prop in H as [H1 H2].
  split; apply b64_same_eq; assumption.
Qed.

Lemma normalizeAngle_tiny_negative_witness :
  (51 <= 70 <= 1074)%Z
  /\ normalizeAngle (neg_pow2 70) = b64_TWO_PI
  /\ normalizeAngle (normalizeAngle (neg_pow2 70)) = S754_zero false.
Proof.
  assert (H : (51 <= 70 <= 1074)%Z) by (split; discriminate).
  split; [ exact H | exact (normalizeAngle_tiny_negative H) ].
Defined.
